(** * Request/response logging middleware for Express

    A shallow embedding of [src/middleware.js]: the interceptor that is
    patched over [res.send], and the middleware that installs it, logs the
    receipt of a request and logs the captured body when the response emits
    [finish].

    JavaScript values are a small inductive type; the response is a record
    whose [send] slot holds either whatever the host put there or a closure
    built by [resDotSendInterceptor]; the code runs in a state and exception
    monad over the response, and every step the middleware takes is recorded
    in a trace, so that the order of its steps can be stated. *)

From Stdlib Require Import List String ZArith Lia.
Import ListNotations.
Open Scope string_scope.
Open Scope list_scope.

Set Warnings "-register-all".

(** ** Values *)

(** The JavaScript values the middleware handles.  [VFun id] is a function
    of the host (Express, Node, the application), known by reference. *)
Inductive value : Type :=
| VUndefined
| VNull
| VBool (b : bool)
| VNum (n : Z)
| VStr (s : string)
| VObj (fields : list (string * value))
| VFun (id : nat).

(** What can sit in [res.send]: a value the host put there, or the closure
    [(content) => { ... }] that [resDotSendInterceptor(res, send)] returns,
    which captures [send]. *)
Inductive sendfn : Type :=
| Plain (v : value)
| Interceptor (send : sendfn).

(** What can be registered with [res.on]: a listener of the host, or the
    closure [() => { logger("SEND >>>", res.contentBody) }] of the
    middleware, which captures [logger]. *)
Inductive listener : Type :=
| HostListener (v : value)
| FinishLogger (logger : value).

(** The attributes of [req] that the middleware reads. *)
Record request : Type := mkRequest {
  method : value;
  url : value;
  hostname : value
}.

(** The response object.  [contentBody] is absent until it is assigned;
    [transport] is the private state of the host. *)
Record response : Type := mkResponse {
  send : sendfn;
  contentBody : option value;
  listeners : list (string * listener);
  transport : list value
}.

(** The steps the middleware and the interceptor take, as they are recorded. *)
Inductive event : Type :=
| EvLog (args : list value)
| EvSetContentBody (v : value)
| EvSetSend (f : sendfn)
| EvOn (name : string) (l : listener)
| EvSend (f : sendfn) (content : value)
| EvNext
| EvListener (l : listener).

Record world : Type := mkWorld {
  res : response;
  trace : list event
}.

(** ** The monad: state, exceptions, and fuel for the calls through the slot *)

Inductive outcome (A : Type) : Type :=
| Return (a : A)
| Throw (e : value).

Arguments Return {A} a.
Arguments Throw {A} e.

Definition M (A : Type) : Type := world -> option (outcome A * world).

Definition ret {A : Type} (a : A) : M A :=
  fun w => Some (Return a, w).

Definition throw {A : Type} (e : value) : M A :=
  fun w => Some (Throw e, w).

Definition bind {A B : Type} (m : M A) (k : A -> M B) : M B :=
  fun w =>
    match m w with
    | None => None
    | Some (Return a, w') => k a w'
    | Some (Throw e, w') => Some (Throw e, w')
    end.

Declare Scope js_scope.
Delimit Scope js_scope with js.
Notation "x <- m ;; k" := (bind m (fun x => k))
  (at level 61, m at next level, right associativity) : js_scope.
Notation "m ;;; k" := (bind m (fun _ => k))
  (at level 61, right associativity) : js_scope.
Open Scope js_scope.

(** A function body that ends without [return] yields [undefined]. *)
Definition discard_result {A : Type} (o : outcome A) : outcome value :=
  match o with
  | Return _ => Return VUndefined
  | Throw e => Throw e
  end.

Definition TypeError (msg : string) : value :=
  VObj [("name", VStr "TypeError"); ("message", VStr msg)].

Definition record (ev : event) : M unit :=
  fun w => Some (Return tt, mkWorld (res w) (trace w ++ [ev])).

(** ** Property access on the response *)

Definition with_send (f : sendfn) (r : response) : response :=
  mkResponse f (contentBody r) (listeners r) (transport r).

Definition with_contentBody (v : value) (r : response) : response :=
  mkResponse (send r) (Some v) (listeners r) (transport r).

Definition with_listener (name : string) (l : listener) (r : response) : response :=
  mkResponse (send r) (contentBody r) (listeners r ++ [(name, l)]) (transport r).

(** [res.send] *)
Definition get_send : M sendfn :=
  fun w => Some (Return (send (res w)), w).

(** [res.send = f] *)
Definition set_send (f : sendfn) : M unit :=
  fun w => Some (Return tt, mkWorld (with_send f (res w)) (trace w ++ [EvSetSend f])).

(** [res.contentBody]: reading an absent property gives [undefined]. *)
Definition get_contentBody : M value :=
  fun w =>
    Some (Return (match contentBody (res w) with Some v => v | None => VUndefined end), w).

(** [res.contentBody = v] *)
Definition set_contentBody (v : value) : M unit :=
  fun w =>
    Some (Return tt, mkWorld (with_contentBody v (res w)) (trace w ++ [EvSetContentBody v])).

(** [res.on(name, l)]: Node's emitter appends the listener. *)
Definition on (name : string) (l : listener) : M unit :=
  fun w =>
    Some (Return tt, mkWorld (with_listener name l (res w)) (trace w ++ [EvOn name l])).

(** [o.k] for a property that is read off a configuration value. *)
Fixpoint lookup (k : string) (fields : list (string * value)) : value :=
  match fields with
  | [] => VUndefined
  | (k', v) :: rest => if String.eqb k k' then v else lookup k rest
  end.

Definition get_prop (o : value) (k : string) : value :=
  match o with
  | VObj fields => lookup k fields
  | _ => VUndefined
  end.

Definition is_function (v : value) : bool :=
  match v with
  | VFun _ => true
  | _ => false
  end.

(** How many interceptor closures are stacked in a slot. *)
Fixpoint depth (f : sendfn) : nat :=
  match f with
  | Plain _ => 0
  | Interceptor send => S (depth send)
  end.

(** The value under all the closures of a slot. *)
Fixpoint original (f : sendfn) : sendfn :=
  match f with
  | Plain _ => f
  | Interceptor send => original send
  end.

Definition log_entry (ev : event) : list (list value) :=
  match ev with
  | EvLog args => [args]
  | _ => []
  end.

(** The entries handed to the logger, in order. *)
Definition log_entries (t : list event) : list (list value) :=
  flat_map log_entry t.

(** The receipt entry and the send entry. *)
Definition receipt (req : request) : list value :=
  [VStr "RECV <<<"; method req; url req; hostname req].

Definition sent (body : value) : list value :=
  [VStr "SEND >>>"; body].

(** ** The code, over the functions of the host *)

Section Middleware.

(** What the host's functions do: given the arguments and the response, a
    result or an exception, and the response as they leave it. *)
Variable native : nat -> list value -> response -> outcome value * response.

(** [f(args)] where [f] comes from the host; [ev] records the call, and
    calling what is not a function is a TypeError. *)
Definition call_host (ev : event) (what : string) (f : value) (args : list value) : M value :=
  match f with
  | VFun id =>
      fun w =>
        let (o, r) := native id args (res w) in
        Some (o, mkWorld r (trace w ++ [ev]))
  | _ => throw (TypeError (what ++ " is not a function")%string)
  end.

(** The body of the closure returned by [resDotSendInterceptor(res, send)];
    [call] is the call through the slot, [res.send(content)]. *)
Definition resDotSendInterceptor_body
  (call : sendfn -> value -> M value) (send : sendfn) (content : value) : M value :=
  set_contentBody content ;;;
  set_send send ;;;
  f <- get_send ;;
  _ <- call f content ;;
  ret VUndefined.

Definition resDotSendInterceptor (send : sendfn) : sendfn :=
  Interceptor send.

(** [f(content)] for what was read off [res.send]. *)
Fixpoint call_send (fuel : nat) (f : sendfn) (content : value) : M value :=
  match fuel with
  | O => fun _ => None
  | S n =>
      match f with
      | Plain v => call_host (EvSend f content) "res.send" v [content]
      | Interceptor send =>
          record (EvSend f content) ;;;
          resDotSendInterceptor_body (call_send n) send content
      end
  end.

(** One more unit of fuel than there are closures to go through. *)
Definition invoke_send (f : sendfn) (content : value) : M value :=
  call_send (S (depth f)) f content.

(** The closure [(req, res, next) => { ... }] that [requestLoggerMiddleware]
    returns, over the [logger] it captured. *)
Definition logging_middleware (logger : value) (req : request) (next : value) : M value :=
  _ <- call_host (EvLog (receipt req)) "logger" logger (receipt req) ;;
  s <- get_send ;;
  set_send (resDotSendInterceptor s) ;;;
  on "finish" (FinishLogger logger) ;;;
  _ <- call_host EvNext "next" next [] ;;
  ret VUndefined.

(** [requestLoggerMiddleware(config)]: the parameter pattern [{ logger }]
    reads [config.logger], and fails only on [undefined] and [null]. *)
Definition requestLoggerMiddleware (config : value)
  : outcome (request -> value -> M value) :=
  match config with
  | VUndefined | VNull =>
      Throw (TypeError "Cannot destructure property 'logger' of 'undefined' or 'null'")
  | _ => Return (logging_middleware (get_prop config "logger"))
  end.

(** ** The host's side of an exchange *)

(** A listener is called without arguments. *)
Definition call_listener (l : listener) : M value :=
  match l with
  | HostListener v => call_host (EvListener l) "listener" v []
  | FinishLogger logger =>
      record (EvListener l) ;;;
      body <- get_contentBody ;;
      _ <- call_host (EvLog (sent body)) "logger" logger (sent body) ;;
      ret VUndefined
  end.

Fixpoint call_listeners (name : string) (ls : list (string * listener)) : M value :=
  match ls with
  | [] => ret VUndefined
  | (name', l) :: rest =>
      if String.eqb name name'
      then call_listener l ;;; call_listeners name rest
      else call_listeners name rest
  end.

(** The response emits [finish]: the listeners registered by then run in
    the order of their registration. *)
Definition emit_finish : M value :=
  fun w => call_listeners "finish" (listeners (res w)) w.

(** A handler's [res.send(content)]. *)
Definition handler_send (content : value) : M value :=
  f <- get_send ;;
  invoke_send f content.

End Middleware.

Arguments call_host native ev what f args w : simpl never.

(** The world in which the interceptor enters the function it was built
    over: the body is captured, the slot holds [send] again, and the three
    steps taken so far are on the trace. *)
Definition entered (send : sendfn) (content : value) (w : world) : world :=
  mkWorld (with_send send (with_contentBody content (res w)))
          (trace w ++ [EvSend (Interceptor send) content;
                       EvSetContentBody content;
                       EvSetSend send]).

(** The result alone, without the state. *)
Definition result_of {A : Type} (x : option (outcome A * world)) : option (outcome A) :=
  option_map fst x.

(** A host whose functions leave alone the three attributes of the response
    that the middleware works with. *)
Definition polite (native : nat -> list value -> response -> outcome value * response) : Prop :=
  forall id args r,
    send (snd (native id args r)) = send r /\
    contentBody (snd (native id args r)) = contentBody r /\
    listeners (snd (native id args r)) = listeners r.

(** A function of the host that returns on every call. *)
Definition returns (native : nat -> list value -> response -> outcome value * response)
  (id : nat) : Prop :=
  forall args r, exists u, fst (native id args r) = Return u.

(** The steps of one call through a slot, closure after closure, down to
    the call of the host's function when there is one. *)
Fixpoint unwinding (f : sendfn) (content : value) : list event :=
  match f with
  | Plain v => if is_function v then [EvSend f content] else []
  | Interceptor send =>
      [EvSend f content; EvSetContentBody content; EvSetSend send]
        ++ unwinding send content
  end.

(** The response as the middleware leaves it for [next]: the slot wrapped,
    the listener registered. *)
Definition patched (logger : value) (r : response) : response :=
  with_listener "finish" (FinishLogger logger)
    (with_send (resDotSendInterceptor (send r)) r).

(** ** A host to run the code on

    The demo application: [console.log] as the logger, a router behind
    [next], Express's [send], which hands the body to the transport and
    returns the response for chaining, and a [send] on a closed socket. *)

Definition console_log : nat := 0.
Definition router_next : nat := 1.
Definition express_send : nat := 2.
Definition broken_send : nat := 3.

Definition demo_host (id : nat) (args : list value) (r : response)
  : outcome value * response :=
  match id with
  | 0 => (Return VUndefined, r)
  | 1 => (Return VUndefined, r)
  | 2 => (Return (VObj [("statusCode", VNum 200)]),
          mkResponse (send r) (contentBody r) (listeners r) (transport r ++ args))
  | _ => (Throw (VStr "EPIPE"), r)
  end.

Definition health_request : request :=
  mkRequest (VStr "GET") (VStr "/api/health") (VStr "localhost").

Definition health_payload : value :=
  VObj [("message", VStr "OK"); ("uptime", VNum 12)].

Definition fresh_world (f : value) : world :=
  mkWorld (mkResponse (Plain f) None [] []) [].

(** The demo application's response once the middleware has run on it. *)
Definition installed_world (f : value) : world :=
  mkWorld (mkResponse (resDotSendInterceptor (Plain f)) None
                      [("finish", FinishLogger (VFun console_log))] [])
          [EvLog (receipt health_request);
           EvSetSend (resDotSendInterceptor (Plain f));
           EvOn "finish" (FinishLogger (VFun console_log));
           EvNext].

(** The demo application's response when the middleware has run on it a
    second time. *)
Definition twice_installed_world (f : value) : world :=
  mkWorld (mkResponse (resDotSendInterceptor (resDotSendInterceptor (Plain f))) None
                      [("finish", FinishLogger (VFun console_log));
                       ("finish", FinishLogger (VFun console_log))] [])
          (trace (installed_world f) ++
           [EvLog (receipt health_request);
            EvSetSend (resDotSendInterceptor (resDotSendInterceptor (Plain f)));
            EvOn "finish" (FinishLogger (VFun console_log));
            EvNext]).

(** A response whose body was captured and whose logger is broken. *)
Definition broken_logger_world : world :=
  mkWorld (mkResponse (Plain (VFun express_send)) (Some health_payload)
                      [("finish", FinishLogger (VFun broken_send))] [])
          [].

(** ** The application

    [app.js] mounts the middleware with [console.log] as its logger and
    answers [/] and [/api/health] with a small payload. *)

Section App.

Variable native : nat -> list value -> response -> outcome value * response.

(** [{ logger: console.log }] *)
Definition app_config (log : nat) : value :=
  VObj [("logger", VFun log)].

(** [{ message: "OK", uptime: process.uptime() }] *)
Definition health_body (uptime : value) : value :=
  VObj [("message", VStr "OK"); ("uptime", uptime)].

(** The handler [(req, res) => { res.send({ ... }) }]. *)
Definition health_handler (uptime : value) : M value :=
  _ <- handler_send native (health_body uptime) ;;
  ret VUndefined.

(** One exchange on a route of the handler: the middleware built at
    [app.use], the handler, which the router runs when the middleware calls
    [next] and after which the middleware does nothing, and [finish]. *)
Definition health_exchange (log : nat) (req : request) (next uptime : value) : M value :=
  match requestLoggerMiddleware native (app_config log) with
  | Throw e => throw e
  | Return mw =>
      mw req next ;;;
      health_handler uptime ;;;
      emit_finish native
  end.

End App.

(** ** Facts about the calls *)

Section Facts.

Variable native : nat -> list value -> response -> outcome value * response.

Lemma call_host_fun (ev : event) (what : string) (id : nat) (args : list value) (w : world) :
  call_host native ev what (VFun id) args w =
  Some (fst (native id args (res w)),
        mkWorld (snd (native id args (res w))) (trace w ++ [ev])).
Proof.
  unfold call_host. destruct (native id args (res w)); reflexivity.
Qed.

Lemma call_host_not_function (ev : event) (what : string) (f : value) (args : list value) (w : world) :
  is_function f = false ->
  call_host native ev what f args w = Some (Throw (TypeError (what ++ " is not a function")%string), w).
Proof.
  destruct f; simpl; intros H; try discriminate; reflexivity.
Qed.

(** The interceptor takes its three steps and then is the function it was
    built over, but for the result. *)
Lemma call_send_interceptor (n : nat) (send0 : sendfn) (content : value) (w : world) :
  call_send native (S n) (Interceptor send0) content w =
  match call_send native n send0 content (entered send0 content w) with
  | None => None
  | Some (o, w') => Some (discard_result o, w')
  end.
Proof.
  unfold entered. simpl.
  unfold resDotSendInterceptor_body, bind, record, set_contentBody, set_send, get_send, ret.
  simpl. rewrite <- !app_assoc. simpl.
  destruct (call_send native n send0 content _) as [[[v | e] w'] | ]; reflexivity.
Qed.

Lemma call_send_more_fuel (n : nat) :
  forall (f : sendfn) (content : value) (w : world) (x : outcome value * world),
    call_send native n f content w = Some x ->
    call_send native (S n) f content w = Some x.
Proof.
  induction n as [| n IH]; intros f content w x H.
  - discriminate.
  - destruct f as [v | send0].
    + exact H.
    + rewrite call_send_interceptor in H. rewrite call_send_interceptor.
      destruct (call_send native n send0 content (entered send0 content w))
        as [[o w'] | ] eqn:E; try discriminate.
      rewrite (IH _ _ _ _ E). exact H.
Qed.

(** With one unit of fuel per closure and one more, the call returns. *)
Lemma call_send_total (n : nat) :
  forall (f : sendfn) (content : value) (w : world),
    depth f < n ->
    exists o w', call_send native n f content w = Some (o, w').
Proof.
  induction n as [| n IH]; intros f content w Hd.
  - lia.
  - destruct f as [v | send0].
    + simpl. destruct (is_function v) eqn:Ef.
      * destruct v; try discriminate. rewrite call_host_fun. eauto.
      * rewrite call_host_not_function by assumption. eauto.
    + rewrite call_send_interceptor.
      simpl in Hd.
      destruct (IH send0 content (entered send0 content w)) as (o & w' & E); [lia |].
      rewrite E. eauto.
Qed.

(** A call through the slot only adds to the trace, and never a log entry. *)
Lemma call_send_trace (n : nat) :
  forall (f : sendfn) (content : value) (w : world) (o : outcome value) (w' : world),
    call_send native n f content w = Some (o, w') ->
    exists tail, trace w' = trace w ++ tail /\ log_entries tail = [].
Proof.
  induction n as [| n IH]; intros f content w o w' H.
  - discriminate.
  - destruct f as [v | send0].
    + simpl in H. destruct (is_function v) eqn:Ef.
      * destruct v; try discriminate. rewrite call_host_fun in H.
        inversion H; subst; clear H. simpl.
        exists [EvSend (Plain (VFun id)) content]. split; reflexivity.
      * rewrite call_host_not_function in H by assumption.
        inversion H; subst; clear H.
        exists []. rewrite app_nil_r. split; reflexivity.
    + rewrite call_send_interceptor in H.
      destruct (call_send native n send0 content (entered send0 content w))
        as [[o1 w1] | ] eqn:E; try discriminate.
      inversion H; subst; clear H.
      destruct (IH _ _ _ _ _ E) as (tail & Ht & Hl).
      exists ([EvSend (Interceptor send0) content; EvSetContentBody content; EvSetSend send0]
                ++ tail).
      split.
      * rewrite Ht. simpl. rewrite <- app_assoc. reflexivity.
      * unfold log_entries in *. rewrite flat_map_app. rewrite Hl. reflexivity.
Qed.

(** C1: invoked with a content value, the interceptor stores it on the
    response as contentBody, then puts the function it was built over back
    in the send slot, and only then calls that function with the same
    value: the call runs in the world where both assignments are done and
    on the trace, in that order, and what follows on the trace is the
    call's own. *)
Theorem interceptor_steps (send0 : sendfn) (C : value) (w : world) :
  exists (o : outcome value) (w' : world) (tail : list event),
    invoke_send native (resDotSendInterceptor send0) C w = Some (discard_result o, w') /\
    invoke_send native send0 C (entered send0 C w) = Some (o, w') /\
    contentBody (res (entered send0 C w)) = Some C /\
    send (res (entered send0 C w)) = send0 /\
    trace (entered send0 C w) =
      trace w ++ [EvSend (resDotSendInterceptor send0) C; EvSetContentBody C; EvSetSend send0] /\
    trace w' = trace (entered send0 C w) ++ tail.
Proof.
  destruct (call_send_total (S (depth send0)) send0 C (entered send0 C w)) as (o & w' & E);
    [lia |].
  destruct (call_send_trace _ _ _ _ _ _ E) as (tail & Ht & _).
  exists o, w', tail.
  unfold invoke_send, resDotSendInterceptor. simpl depth.
  rewrite call_send_interceptor, E.
  repeat split; assumption.
Qed.

(** C6, as the code has it: when the function the interceptor was built
    over returns, whatever it returns, the interceptor returns undefined;
    the state is the one that function left. *)
Theorem interceptor_returns_undefined
  (n : nat) (send0 : sendfn) (C v : value) (w w' : world) :
  call_send native n send0 C (entered send0 C w) = Some (Return v, w') ->
  call_send native (S n) (resDotSendInterceptor send0) C w = Some (Return VUndefined, w').
Proof.
  intros H. unfold resDotSendInterceptor. rewrite call_send_interceptor, H. reflexivity.
Qed.

(** C7: when the function the interceptor was built over throws, the
    interceptor throws the same exception, in the state that function left,
    and the log has no entry that it did not have before the call. *)
Theorem interceptor_propagates_throw
  (n : nat) (send0 : sendfn) (C e : value) (w w' : world) :
  call_send native n send0 C (entered send0 C w) = Some (Throw e, w') ->
  call_send native (S n) (resDotSendInterceptor send0) C w = Some (Throw e, w') /\
  log_entries (trace w') = log_entries (trace w).
Proof.
  intros H. split.
  - unfold resDotSendInterceptor. rewrite call_send_interceptor, H. reflexivity.
  - destruct (call_send_trace _ _ _ _ _ _ H) as (tail & Ht & Hl).
    rewrite Ht. unfold entered, log_entries in *. simpl trace.
    rewrite !flat_map_app, Hl. simpl. rewrite !app_nil_r. reflexivity.
Qed.

(** ** Facts about the middleware and the exchange *)

Lemma log_entries_app (t1 t2 : list event) :
  log_entries (t1 ++ t2) = log_entries t1 ++ log_entries t2.
Proof.
  unfold log_entries. apply flat_map_app.
Qed.

Lemma handler_send_eq (C : value) (w : world) :
  handler_send native C w = invoke_send native (send (res w)) C w.
Proof.
  reflexivity.
Qed.

(** What a call through the slot leaves on a response, when the host is
    polite. *)
Lemma call_send_frame (Hp : polite native) (n : nat) :
  forall (f : sendfn) (C : value) (w : world) (o : outcome value) (w' : world),
    call_send native n f C w = Some (o, w') ->
    listeners (res w') = listeners (res w) /\
    contentBody (res w') =
      match f with
      | Plain _ => contentBody (res w)
      | Interceptor _ => Some C
      end /\
    send (res w') =
      match f with
      | Plain _ => send (res w)
      | Interceptor _ => original f
      end.
Proof.
  induction n as [| n IH]; intros f C w o w' H.
  - discriminate.
  - destruct f as [v | send0].
    + simpl in H. destruct (is_function v) eqn:Ef.
      * destruct v; try discriminate. rewrite call_host_fun in H.
        inversion H; subst; clear H. simpl.
        destruct (Hp id [C] (res w)) as (Hs & Hc & Hl). auto.
      * rewrite call_host_not_function in H by assumption.
        inversion H; subst; clear H. auto.
    + rewrite call_send_interceptor in H.
      destruct (call_send native n send0 C (entered send0 C w))
        as [[o1 w1] | ] eqn:E; try discriminate.
      inversion H; subst; clear H.
      destruct (IH _ _ _ _ _ E) as (Hl & Hc & Hs).
      simpl in Hl, Hc, Hs. repeat split.
      * exact Hl.
      * rewrite Hc. destruct send0; reflexivity.
      * rewrite Hs. destruct send0; reflexivity.
Qed.

(** The middleware, when it returns: what it found in the slot is wrapped,
    its listener is the last one registered, and the four steps are on the
    trace. *)
Lemma middleware_returned (Hp : polite native)
  (logger : value) (req : request) (next : value) (w0 : world) (v : value) (w1 : world) :
  logging_middleware native logger req next w0 = Some (Return v, w1) ->
  is_function logger = true /\
  send (res w1) = resDotSendInterceptor (send (res w0)) /\
  contentBody (res w1) = contentBody (res w0) /\
  listeners (res w1) = listeners (res w0) ++ [("finish", FinishLogger logger)] /\
  trace w1 = trace w0 ++ [EvLog (receipt req);
                          EvSetSend (resDotSendInterceptor (send (res w0)));
                          EvOn "finish" (FinishLogger logger);
                          EvNext].
Proof.
  intros H. unfold logging_middleware, bind in H.
  destruct (is_function logger) eqn:El.
  2:{ rewrite call_host_not_function in H by assumption. discriminate. }
  destruct logger as [ | | | | | | l]; try discriminate.
  rewrite call_host_fun in H.
  destruct (Hp l (receipt req) (res w0)) as (Hs & Hc & Hl).
  destruct (fst (native l (receipt req) (res w0))); try discriminate.
  unfold get_send, set_send, on in H. simpl in H.
  destruct (is_function next) eqn:En.
  2:{ rewrite call_host_not_function in H by assumption. discriminate. }
  destruct next as [ | | | | | | k]; try discriminate.
  rewrite call_host_fun in H. simpl in H.
  match type of H with
  | context [native k [] ?r] =>
      destruct (Hp k [] r) as (Hs' & Hc' & Hl');
      destruct (fst (native k [] r)); try discriminate
  end.
  unfold ret in H. inversion H; subst; clear H. simpl.
  rewrite Hs', Hc', Hl'. simpl. rewrite Hs, Hc, Hl.
  rewrite <- !app_assoc. simpl. auto.
Qed.

(** The response emits [finish] when the middleware's listener is the only
    one: the listener logs the body, and its outcome is the logger's. *)
Lemma emit_finish_logger (l : nat) (w : world) :
  listeners (res w) = [("finish", FinishLogger (VFun l))] ->
  let body := match contentBody (res w) with Some b => b | None => VUndefined end in
  emit_finish native w =
  Some (discard_result (fst (native l (sent body) (res w))),
        mkWorld (snd (native l (sent body) (res w)))
                (trace w ++ [EvListener (FinishLogger (VFun l)); EvLog (sent body)])).
Proof.
  intros Hl body. unfold emit_finish. rewrite Hl. simpl.
  unfold bind, record, get_contentBody. simpl. rewrite call_host_fun. simpl.
  fold body. rewrite <- app_assoc. simpl.
  destruct (fst (native l (sent body) (res w))); reflexivity.
Qed.

(** C5: the middleware built from a configuration with a logger first
    hands the logger the receipt entry, that is the marker and the method,
    the url and the hostname of the request; this is its only log entry, and
    replacing the send slot, registering the listener and calling next come
    after it on the trace, as far as the run gets. *)
Theorem receipt_logged_first
  (config : value) (l : nat) (req : request) (next : value) (w : world) :
  get_prop config "logger" = VFun l ->
  exists mw o w' tail rest,
    requestLoggerMiddleware native config = Return mw /\
    mw req next w = Some (o, w') /\
    trace w' = trace w ++ EvLog (receipt req) :: tail /\
    receipt req = [VStr "RECV <<<"; method req; url req; hostname req] /\
    log_entries tail = [] /\
    tail ++ rest =
      [EvSetSend (resDotSendInterceptor (send (snd (native l (receipt req) (res w)))));
       EvOn "finish" (FinishLogger (VFun l));
       EvNext].
Proof.
  intros Hlog.
  destruct config; simpl in Hlog; try discriminate.
  simpl requestLoggerMiddleware. rewrite Hlog.
  exists (logging_middleware native (VFun l)).
  unfold logging_middleware, bind. rewrite call_host_fun.
  destruct (fst (native l (receipt req) (res w))) as [u | e].
  - unfold get_send, set_send, on. simpl.
    destruct (is_function next) eqn:En.
    + destruct next as [ | | | | | | k]; try discriminate.
      rewrite call_host_fun. simpl.
      match goal with
      | |- context [fst ?x] => destruct (fst x)
      end;
        do 2 eexists; eexists (_ :: _ :: _ :: nil), nil;
        (split; [reflexivity |]); (split; [reflexivity |]); simpl;
        rewrite <- !app_assoc; simpl; repeat split; reflexivity.
    + rewrite call_host_not_function by assumption.
      do 2 eexists. eexists (_ :: _ :: nil), (_ :: nil).
      split; [reflexivity |]. split; [reflexivity |]. simpl.
      rewrite <- !app_assoc. simpl. repeat split; reflexivity.
  - do 2 eexists. exists nil. eexists.
    split; [reflexivity |]. split; [reflexivity |]. simpl.
    repeat split; reflexivity.
Qed.

(** C10: when the logger throws on the receipt entry, the middleware throws
    the same exception; the response is as the logger left it, and the call
    of the logger is the only step on the trace: the send slot was not
    assigned, no listener was registered, contentBody was not set and next
    was not called. *)
Theorem logger_failure_stops_middleware
  (config : value) (l : nat) (req : request) (next e : value) (w : world) :
  get_prop config "logger" = VFun l ->
  fst (native l (receipt req) (res w)) = Throw e ->
  exists mw w',
    requestLoggerMiddleware native config = Return mw /\
    mw req next w = Some (Throw e, w') /\
    res w' = snd (native l (receipt req) (res w)) /\
    trace w' = trace w ++ [EvLog (receipt req)].
Proof.
  intros Hlog Hthrow.
  destruct config; simpl in Hlog; try discriminate.
  simpl requestLoggerMiddleware. rewrite Hlog.
  do 2 eexists. split; [reflexivity |].
  unfold logging_middleware, bind. rewrite call_host_fun, Hthrow.
  repeat split; reflexivity.
Qed.

(** C9, as the code has it: building the middleware from a configuration
    object without a logger function returns a middleware and raises
    nothing; it is each call of that middleware that throws a TypeError, at
    its first step, with the response and the trace untouched. *)
Theorem missing_logger_fails_per_request
  (fields : list (string * value)) (req : request) (next : value) (w : world) :
  is_function (lookup "logger" fields) = false ->
  exists mw,
    requestLoggerMiddleware native (VObj fields) = Return mw /\
    mw req next w = Some (Throw (TypeError "logger is not a function"), w).
Proof.
  intros Hno. eexists. split; [reflexivity |].
  unfold logging_middleware, bind. simpl get_prop.
  rewrite call_host_not_function by assumption. reflexivity.
Qed.

(** C2: on a response whose send slot held a value of the host when the
    middleware ran, the slot holds the interceptor after the middleware, and
    after one send through it the slot holds that same value again. *)
Theorem send_slot_round_trip
  (logger : value) (req : request) (next v0 C v : value) (w0 w1 : world) :
  polite native ->
  send (res w0) = Plain v0 ->
  logging_middleware native logger req next w0 = Some (Return v, w1) ->
  send (res w1) = resDotSendInterceptor (Plain v0) /\
  exists o w2,
    handler_send native C w1 = Some (o, w2) /\
    send (res w2) = send (res w0).
Proof.
  intros Hp Hs Hmw.
  destruct (middleware_returned Hp _ _ _ _ _ _ Hmw) as (_ & Hs1 & _).
  rewrite Hs in Hs1. split; [exact Hs1 |].
  rewrite handler_send_eq, Hs1.
  destruct (call_send_total (S (depth (resDotSendInterceptor (Plain v0))))
              (resDotSendInterceptor (Plain v0)) C w1) as (o & w2 & E); [lia |].
  exists o, w2. split; [exact E |].
  destruct (call_send_frame Hp _ _ _ _ _ _ E) as (_ & _ & Hs2).
  rewrite Hs2, Hs. reflexivity.
Qed.

(** C4: after the middleware has run on a response without listeners and a
    handler has sent one value, the response emits [finish]: the listener
    hands the logger the send marker and that value, and the log of the
    exchange is the receipt entry and this one. *)
Theorem send_entry_carries_content
  (logger : value) (req : request) (next C v : value) (w0 w1 : world) :
  polite native ->
  listeners (res w0) = [] ->
  logging_middleware native logger req next w0 = Some (Return v, w1) ->
  exists o1 w2 o2 w3,
    handler_send native C w1 = Some (o1, w2) /\
    contentBody (res w2) = Some C /\
    emit_finish native w2 = Some (o2, w3) /\
    trace w3 = trace w2 ++ [EvListener (FinishLogger logger); EvLog [VStr "SEND >>>"; C]] /\
    log_entries (trace w3) = log_entries (trace w0) ++ [receipt req; [VStr "SEND >>>"; C]].
Proof.
  intros Hp Hl0 Hmw.
  destruct (middleware_returned Hp _ _ _ _ _ _ Hmw) as (Hf & Hs1 & _ & Hl1 & Ht1).
  destruct logger as [ | | | | | | l]; try discriminate.
  rewrite Hl0 in Hl1. simpl in Hl1.
  destruct (call_send_total (S (depth (send (res w1)))) (send (res w1)) C w1)
    as (o1 & w2 & E); [lia |].
  destruct (call_send_frame Hp _ _ _ _ _ _ E) as (Hl2 & Hc2 & _).
  destruct (call_send_trace _ _ _ _ _ _ E) as (tail & Ht2 & Hlog2).
  rewrite Hs1 in Hc2. simpl in Hc2. rewrite Hl1 in Hl2.
  pose proof (emit_finish_logger l w2 Hl2) as Hfin. simpl in Hfin.
  rewrite Hc2 in Hfin.
  do 4 eexists. split; [exact E |]. split; [exact Hc2 |].
  split; [exact Hfin |]. simpl. split; [reflexivity |].
  rewrite Ht2, Ht1. rewrite !log_entries_app, Hlog2. simpl.
  rewrite !app_nil_r, <- app_assoc. reflexivity.
Qed.

(** C3: after the middleware has run on a response without listeners whose
    send slot held a function of the host, two sends in a row: the first
    goes through the interceptor, which captures its value and calls the
    host's function; the second is a call of the host's function and
    nothing else; contentBody is the first value, and at [finish] the
    listener logs the first value, so that the log of the exchange is the
    receipt entry and the send entry of the first value. *)
Theorem second_send_bypasses_interceptor
  (logger : value) (orig : nat) (req : request) (next C1 C2 v : value) (w0 w1 : world) :
  polite native ->
  listeners (res w0) = [] ->
  send (res w0) = Plain (VFun orig) ->
  logging_middleware native logger req next w0 = Some (Return v, w1) ->
  exists o1 w2 o2 w3 o3 w4,
    handler_send native C1 w1 = Some (o1, w2) /\
    trace w2 = trace w1 ++ [EvSend (resDotSendInterceptor (Plain (VFun orig))) C1;
                            EvSetContentBody C1;
                            EvSetSend (Plain (VFun orig));
                            EvSend (Plain (VFun orig)) C1] /\
    handler_send native C2 w2 = Some (o2, w3) /\
    trace w3 = trace w2 ++ [EvSend (Plain (VFun orig)) C2] /\
    contentBody (res w3) = Some C1 /\
    emit_finish native w3 = Some (o3, w4) /\
    trace w4 = trace w3 ++ [EvListener (FinishLogger logger); EvLog [VStr "SEND >>>"; C1]] /\
    log_entries (trace w4) = log_entries (trace w0) ++ [receipt req; [VStr "SEND >>>"; C1]].
Proof.
  intros Hp Hl0 Hs0 Hmw.
  destruct (middleware_returned Hp _ _ _ _ _ _ Hmw) as (Hf & Hs1 & _ & Hl1 & Ht1).
  destruct logger as [ | | | | | | l]; try discriminate.
  rewrite Hl0 in Hl1. simpl in Hl1. rewrite Hs0 in Hs1.
  (* the first send *)
  assert (E1 : exists o1 w2,
             handler_send native C1 w1 = Some (o1, w2) /\
             trace w2 = trace w1 ++ [EvSend (Interceptor (Plain (VFun orig))) C1;
                                     EvSetContentBody C1;
                                     EvSetSend (Plain (VFun orig));
                                     EvSend (Plain (VFun orig)) C1]).
  { rewrite handler_send_eq, Hs1. unfold invoke_send, resDotSendInterceptor.
    rewrite call_send_interceptor. simpl call_send. rewrite call_host_fun.
    do 2 eexists. split; [reflexivity |]. simpl. rewrite <- app_assoc. reflexivity. }
  destruct E1 as (o1 & w2 & E1 & Ht2).
  pose proof E1 as F1. rewrite handler_send_eq, Hs1 in F1.
  destruct (call_send_frame Hp _ _ _ _ _ _ F1) as (Hl2 & Hc2 & Hs2).
  simpl in Hc2, Hs2.
  (* the second send *)
  assert (E2 : exists o2 w3,
             handler_send native C2 w2 = Some (o2, w3) /\
             trace w3 = trace w2 ++ [EvSend (Plain (VFun orig)) C2]).
  { rewrite handler_send_eq, Hs2. unfold invoke_send. simpl call_send.
    rewrite call_host_fun. do 2 eexists. split; reflexivity. }
  destruct E2 as (o2 & w3 & E2 & Ht3).
  pose proof E2 as F2. rewrite handler_send_eq, Hs2 in F2.
  destruct (call_send_frame Hp _ _ _ _ _ _ F2) as (Hl3 & Hc3 & Hs3).
  simpl in Hc3. rewrite Hc2 in Hc3. rewrite Hl2, Hl1 in Hl3.
  (* finish *)
  pose proof (emit_finish_logger l w3 Hl3) as Hfin. simpl in Hfin.
  rewrite Hc3 in Hfin.
  do 6 eexists.
  split; [exact E1 |]. split; [exact Ht2 |].
  split; [exact E2 |]. split; [exact Ht3 |].
  split; [exact Hc3 |]. split; [exact Hfin |].
  simpl. split; [reflexivity |].
  rewrite Ht3, Ht2, Ht1. rewrite !log_entries_app. simpl.
  rewrite !app_nil_r, <- app_assoc. reflexivity.
Qed.

(** C8: after the middleware has run on a response without contentBody and
    without listeners, with a logger that takes the send entry of an absent
    body without raising, and no send before [finish]: the listener hands
    the logger the send marker and undefined, and returns; the log of the
    exchange is the receipt entry and this one. *)
Theorem absent_body_logged_as_undefined
  (l : nat) (req : request) (next v : value) (w0 w1 : world) :
  polite native ->
  contentBody (res w0) = None ->
  listeners (res w0) = [] ->
  (forall r, exists u, fst (native l [VStr "SEND >>>"; VUndefined] r) = Return u) ->
  logging_middleware native (VFun l) req next w0 = Some (Return v, w1) ->
  exists w2,
    emit_finish native w1 = Some (Return VUndefined, w2) /\
    trace w2 = trace w1 ++ [EvListener (FinishLogger (VFun l));
                            EvLog [VStr "SEND >>>"; VUndefined]] /\
    log_entries (trace w2) =
      log_entries (trace w0) ++ [receipt req; [VStr "SEND >>>"; VUndefined]].
Proof.
  intros Hp Hc0 Hl0 Hsink Hmw.
  destruct (middleware_returned Hp _ _ _ _ _ _ Hmw) as (_ & _ & Hc1 & Hl1 & Ht1).
  rewrite Hl0 in Hl1. simpl in Hl1. rewrite Hc0 in Hc1.
  pose proof (emit_finish_logger l w1 Hl1) as Hfin. simpl in Hfin.
  rewrite Hc1 in Hfin.
  destruct (Hsink (res w1)) as (u & Hu). unfold sent in Hfin. rewrite Hu in Hfin.
  eexists. split; [exact Hfin |]. simpl. split; [reflexivity |].
  rewrite Ht1. rewrite !log_entries_app. simpl.
  rewrite <- app_assoc. reflexivity.
Qed.

End Facts.

(** ** The demo application *)

Lemma demo_host_polite : polite demo_host.
Proof.
  intros id args r. destruct id as [| [| [| id]]]; simpl; auto.
Qed.

Lemma demo_middleware_run (f : value) :
  logging_middleware demo_host (VFun console_log) health_request (VFun router_next)
    (fresh_world f) = Some (Return VUndefined, installed_world f).
Proof.
  reflexivity.
Qed.

Lemma interceptor_returns_undefined_witness :
  result_of (call_send demo_host 2 (resDotSendInterceptor (Plain (VFun express_send)))
               health_payload (fresh_world (VFun express_send)))
  = Some (Return VUndefined).
Proof.
  rewrite (interceptor_returns_undefined demo_host 1 (Plain (VFun express_send))
             health_payload (VObj [("statusCode", VNum 200)])
             (fresh_world (VFun express_send)) _ eq_refl).
  reflexivity.
Defined.

(** Express's send returns the response, and the interceptor over it
    returns undefined. *)
Lemma interceptor_drops_result :
  result_of (invoke_send demo_host (Plain (VFun express_send)) health_payload
               (fresh_world (VFun express_send)))
  = Some (Return (VObj [("statusCode", VNum 200)])) /\
  result_of (invoke_send demo_host (resDotSendInterceptor (Plain (VFun express_send)))
               health_payload (fresh_world (VFun express_send)))
  = Some (Return VUndefined) /\
  result_of (invoke_send demo_host (resDotSendInterceptor (Plain (VFun express_send)))
               health_payload (fresh_world (VFun express_send)))
  <> result_of (invoke_send demo_host (Plain (VFun express_send)) health_payload
                  (entered (Plain (VFun express_send)) health_payload
                     (fresh_world (VFun express_send)))).
Proof.
  repeat split; try reflexivity. vm_compute. discriminate.
Qed.

Lemma interceptor_propagates_throw_witness :
  exists w',
    call_send demo_host 2 (resDotSendInterceptor (Plain (VFun broken_send)))
      health_payload (fresh_world (VFun broken_send)) = Some (Throw (VStr "EPIPE"), w') /\
    log_entries (trace w') = [].
Proof.
  eexists.
  apply (interceptor_propagates_throw demo_host 1 (Plain (VFun broken_send))
           health_payload (VStr "EPIPE") (fresh_world (VFun broken_send))).
  reflexivity.
Defined.

Lemma receipt_logged_first_witness :
  exists mw o w' tail rest,
    requestLoggerMiddleware demo_host (VObj [("logger", VFun console_log)]) = Return mw /\
    mw health_request (VFun router_next) (fresh_world (VFun express_send)) = Some (o, w') /\
    trace w' = [] ++ EvLog (receipt health_request) :: tail /\
    receipt health_request =
      [VStr "RECV <<<"; VStr "GET"; VStr "/api/health"; VStr "localhost"] /\
    log_entries tail = [] /\
    tail ++ rest =
      [EvSetSend (resDotSendInterceptor (Plain (VFun express_send)));
       EvOn "finish" (FinishLogger (VFun console_log));
       EvNext].
Proof.
  exact (receipt_logged_first demo_host (VObj [("logger", VFun console_log)]) console_log
           health_request (VFun router_next) (fresh_world (VFun express_send)) eq_refl).
Defined.

Lemma logger_failure_stops_middleware_witness :
  exists mw w',
    requestLoggerMiddleware demo_host (VObj [("logger", VFun broken_send)]) = Return mw /\
    mw health_request (VFun router_next) (fresh_world (VFun express_send))
      = Some (Throw (VStr "EPIPE"), w') /\
    res w' = res (fresh_world (VFun express_send)) /\
    trace w' = [EvLog (receipt health_request)].
Proof.
  exact (logger_failure_stops_middleware demo_host (VObj [("logger", VFun broken_send)])
           broken_send health_request (VFun router_next) (VStr "EPIPE")
           (fresh_world (VFun express_send)) eq_refl eq_refl).
Defined.

Lemma missing_logger_fails_per_request_witness :
  exists mw,
    requestLoggerMiddleware demo_host (VObj [("verbose", VBool true)]) = Return mw /\
    mw health_request (VFun router_next) (fresh_world (VFun express_send))
      = Some (Throw (TypeError "logger is not a function"), fresh_world (VFun express_send)).
Proof.
  exact (missing_logger_fails_per_request demo_host [("verbose", VBool true)]
           health_request (VFun router_next) (fresh_world (VFun express_send)) eq_refl).
Defined.

(** Building the middleware from a configuration object without a logger
    returns a middleware: nothing is raised. *)
Lemma construction_without_logger_returns :
  is_function (get_prop (VObj []) "logger") = false /\
  requestLoggerMiddleware demo_host (VObj []) = Return (logging_middleware demo_host VUndefined) /\
  ~ (exists e, requestLoggerMiddleware demo_host (VObj []) = Throw e).
Proof.
  repeat split. intros [e H]. discriminate.
Qed.

Lemma send_slot_round_trip_witness :
  send (res (installed_world (VFun express_send)))
    = resDotSendInterceptor (Plain (VFun express_send)) /\
  exists o w2,
    handler_send demo_host health_payload (installed_world (VFun express_send)) = Some (o, w2) /\
    send (res w2) = Plain (VFun express_send).
Proof.
  exact (send_slot_round_trip demo_host (VFun console_log) health_request (VFun router_next)
           (VFun express_send) health_payload VUndefined
           (fresh_world (VFun express_send)) (installed_world (VFun express_send))
           demo_host_polite eq_refl (demo_middleware_run (VFun express_send))).
Defined.

Lemma send_entry_carries_content_witness :
  exists o1 w2 o2 w3,
    handler_send demo_host health_payload (installed_world (VFun express_send)) = Some (o1, w2) /\
    contentBody (res w2) = Some health_payload /\
    emit_finish demo_host w2 = Some (o2, w3) /\
    trace w3 = trace w2 ++ [EvListener (FinishLogger (VFun console_log));
                            EvLog [VStr "SEND >>>"; health_payload]] /\
    log_entries (trace w3) = [receipt health_request; [VStr "SEND >>>"; health_payload]].
Proof.
  exact (send_entry_carries_content demo_host (VFun console_log) health_request
           (VFun router_next) health_payload VUndefined
           (fresh_world (VFun express_send)) (installed_world (VFun express_send))
           demo_host_polite eq_refl (demo_middleware_run (VFun express_send))).
Defined.

Lemma second_send_bypasses_interceptor_witness :
  exists w3 o3 w4,
    contentBody (res w3) = Some health_payload /\
    emit_finish demo_host w3 = Some (o3, w4) /\
    log_entries (trace w4) = [receipt health_request; [VStr "SEND >>>"; health_payload]].
Proof.
  destruct (second_send_bypasses_interceptor demo_host (VFun console_log) express_send
              health_request (VFun router_next) health_payload (VStr "again") VUndefined
              (fresh_world (VFun express_send)) (installed_world (VFun express_send))
              demo_host_polite eq_refl eq_refl (demo_middleware_run (VFun express_send)))
    as (o1 & w2 & o2 & w3 & o3 & w4 & _ & _ & _ & _ & Hc & Hf & _ & Hl).
  exists w3, o3, w4. repeat split; assumption.
Defined.

Lemma absent_body_logged_as_undefined_witness :
  exists w2,
    emit_finish demo_host (installed_world (VFun express_send)) = Some (Return VUndefined, w2) /\
    trace w2 = trace (installed_world (VFun express_send))
                 ++ [EvListener (FinishLogger (VFun console_log));
                     EvLog [VStr "SEND >>>"; VUndefined]] /\
    log_entries (trace w2) = [receipt health_request; [VStr "SEND >>>"; VUndefined]].
Proof.
  exact (absent_body_logged_as_undefined demo_host console_log health_request
           (VFun router_next) VUndefined
           (fresh_world (VFun express_send)) (installed_world (VFun express_send))
           demo_host_polite eq_refl eq_refl
           (fun r => ex_intro _ VUndefined eq_refl)
           (demo_middleware_run (VFun express_send))).
Defined.

(** ** More on the interceptor, the middleware and the application *)

Section Further.

Variable native : nat -> list value -> response -> outcome value * response.

Lemma depth_original (f : sendfn) : depth (original f) = 0.
Proof.
  induction f as [v | send0 IH]; simpl; [reflexivity | exact IH].
Qed.

Lemma call_send_unwinding (n : nat) :
  forall (f : sendfn) (C : value) (w : world),
    depth f < n ->
    exists o w',
      call_send native n f C w = Some (o, w') /\
      trace w' = trace w ++ unwinding f C.
Proof.
  induction n as [| n IH]; intros f C w Hd.
  - lia.
  - destruct f as [v | send0].
    + simpl call_send. simpl unwinding. destruct (is_function v) eqn:Ef.
      * destruct v; try discriminate. rewrite call_host_fun.
        do 2 eexists. split; reflexivity.
      * rewrite call_host_not_function by assumption.
        do 2 eexists. split; [reflexivity |]. rewrite app_nil_r. reflexivity.
    + rewrite call_send_interceptor. simpl in Hd.
      destruct (IH send0 C (entered send0 C w)) as (o & w' & E & Ht); [lia |].
      rewrite E. do 2 eexists. split; [reflexivity |].
      rewrite Ht. simpl. rewrite <- app_assoc. reflexivity.
Qed.

(** X1: building the middleware raises exactly when the configuration is
    undefined or null; for every other value, with or without a logger, it
    returns a middleware. *)
Theorem construction_fails_only_on_nullish (config : value) :
  (exists e, requestLoggerMiddleware native config = Throw e) <->
  (config = VUndefined \/ config = VNull).
Proof.
  split.
  - intros [e H]. destruct config; simpl in H; try discriminate; auto.
  - intros [H | H]; subst; simpl; eauto.
Qed.

(** X2: a send through a slot with any number of interceptors stacked in it
    returns, and takes these steps and no others: each interceptor in turn
    captures the value and puts back what it was built over, and then the
    host's function, when there is one, is called once. *)
Theorem send_unwinds_stack (f : sendfn) (C : value) (w : world) :
  exists o w',
    invoke_send native f C w = Some (o, w') /\
    trace w' = trace w ++ unwinding f C.
Proof.
  unfold invoke_send. apply call_send_unwinding. lia.
Qed.

(** X3: on a polite host, after a handler's send the slot holds what was
    under all the interceptors stacked in it, so no interceptor remains;
    contentBody is the value sent when the slot held an interceptor and is
    left alone when it did not; the listeners are as they were. *)
Theorem no_interceptor_remains (C : value) (w : world) :
  polite native ->
  exists o w',
    handler_send native C w = Some (o, w') /\
    send (res w') = original (send (res w)) /\
    depth (send (res w')) = 0 /\
    contentBody (res w') =
      match send (res w) with
      | Plain _ => contentBody (res w)
      | Interceptor _ => Some C
      end /\
    listeners (res w') = listeners (res w).
Proof.
  intros Hp. rewrite handler_send_eq. unfold invoke_send.
  destruct (call_send_total native (S (depth (send (res w)))) (send (res w)) C w)
    as (o & w' & E); [lia |].
  destruct (call_send_frame native Hp _ _ _ _ _ _ E) as (Hl & Hc & Hs).
  assert (Hs' : send (res w') = original (send (res w))).
  { rewrite Hs. destruct (send (res w)); reflexivity. }
  exists o, w'. split; [exact E |]. split; [exact Hs' |].
  split; [rewrite Hs'; apply depth_original |]. split; assumption.
Qed.

(** X4: an interceptor built over a value that is not a function still
    captures the content and puts that value back in the slot, and then
    throws the TypeError of the call. *)
Theorem interceptor_over_non_function (v C : value) (w : world) :
  is_function v = false ->
  invoke_send native (resDotSendInterceptor (Plain v)) C w =
  Some (Throw (TypeError "res.send is not a function"), entered (Plain v) C w).
Proof.
  intros Hv. unfold invoke_send, resDotSendInterceptor. simpl depth.
  rewrite call_send_interceptor. simpl call_send.
  rewrite call_host_not_function by assumption. reflexivity.
Qed.

Lemma logging_middleware_run
  (l k : nat) (req : request) (u : value) (w : world) :
  fst (native l (receipt req) (res w)) = Return u ->
  logging_middleware native (VFun l) req (VFun k) w =
  Some (discard_result
          (fst (native k [] (patched (VFun l) (snd (native l (receipt req) (res w)))))),
        mkWorld (snd (native k [] (patched (VFun l) (snd (native l (receipt req) (res w))))))
                (trace w ++
                 [EvLog (receipt req);
                  EvSetSend (resDotSendInterceptor
                               (send (snd (native l (receipt req) (res w)))));
                  EvOn "finish" (FinishLogger (VFun l));
                  EvNext])).
Proof.
  intros Hl. unfold logging_middleware, bind. rewrite call_host_fun, Hl.
  unfold get_send, set_send, on. simpl. rewrite call_host_fun. simpl.
  unfold patched. rewrite <- !app_assoc. simpl.
  destruct (fst (native k [] _)); reflexivity.
Qed.

(** X5: when the logger returns, the middleware calls next last and once,
    on the response with the slot wrapped and the listener registered; it
    returns undefined when next returns and throws what next throws, and
    the response stays patched either way. *)
Theorem middleware_hands_patched_response_to_next
  (l k : nat) (req : request) (u : value) (w : world) :
  fst (native l (receipt req) (res w)) = Return u ->
  exists o w',
    logging_middleware native (VFun l) req (VFun k) w = Some (discard_result o, w') /\
    native k [] (patched (VFun l) (snd (native l (receipt req) (res w)))) = (o, res w') /\
    send (patched (VFun l) (snd (native l (receipt req) (res w)))) =
      resDotSendInterceptor (send (snd (native l (receipt req) (res w)))) /\
    listeners (patched (VFun l) (snd (native l (receipt req) (res w)))) =
      listeners (snd (native l (receipt req) (res w)))
        ++ [("finish", FinishLogger (VFun l))] /\
    trace w' =
      trace w ++
      [EvLog (receipt req);
       EvSetSend (resDotSendInterceptor (send (snd (native l (receipt req) (res w)))));
       EvOn "finish" (FinishLogger (VFun l));
       EvNext].
Proof.
  intros Hl. do 2 eexists.
  split; [apply (logging_middleware_run l k req u w Hl) |].
  simpl. split; [| repeat split].
  destruct (native k [] _); reflexivity.
Qed.

(** X6: when next is not a function, the middleware throws a TypeError only
    after it has logged the receipt, wrapped the slot and registered the
    listener: the response is left patched. *)
Theorem middleware_without_next
  (l : nat) (req : request) (next u : value) (w : world) :
  is_function next = false ->
  fst (native l (receipt req) (res w)) = Return u ->
  logging_middleware native (VFun l) req next w =
  Some (Throw (TypeError "next is not a function"),
        mkWorld (patched (VFun l) (snd (native l (receipt req) (res w))))
                (trace w ++
                 [EvLog (receipt req);
                  EvSetSend (resDotSendInterceptor
                               (send (snd (native l (receipt req) (res w)))));
                  EvOn "finish" (FinishLogger (VFun l))])).
Proof.
  intros Hn Hl. unfold logging_middleware, bind. rewrite call_host_fun, Hl.
  unfold get_send, set_send, on. simpl.
  rewrite call_host_not_function by assumption.
  unfold patched. rewrite <- !app_assoc. reflexivity.
Qed.

(** X7: a handler's send adds no entry to the log, whatever the slot holds:
    the body is logged at [finish] and not before. *)
Theorem send_does_not_log (C : value) (w : world) :
  exists o w',
    handler_send native C w = Some (o, w') /\
    log_entries (trace w') = log_entries (trace w).
Proof.
  rewrite handler_send_eq. unfold invoke_send.
  destruct (call_send_total native (S (depth (send (res w)))) (send (res w)) C w)
    as (o & w' & E); [lia |].
  destruct (call_send_trace native _ _ _ _ _ _ E) as (tail & Ht & Hl).
  exists o, w'. split; [exact E |].
  rewrite Ht, log_entries_app, Hl. apply app_nil_r.
Qed.

(** X8: when the logger throws on the send entry, [finish] throws the same
    exception out of the listener, after the entry was handed to the
    logger. *)
Theorem finish_propagates_logger_failure (l : nat) (e : value) (w : world) :
  listeners (res w) = [("finish", FinishLogger (VFun l))] ->
  fst (native l
         (sent (match contentBody (res w) with Some b => b | None => VUndefined end))
         (res w)) = Throw e ->
  exists w',
    emit_finish native w = Some (Throw e, w') /\
    trace w' =
      trace w ++
      [EvListener (FinishLogger (VFun l));
       EvLog (sent (match contentBody (res w) with Some b => b | None => VUndefined end))].
Proof.
  intros Hl He. pose proof (emit_finish_logger native l w Hl) as H.
  simpl in H. rewrite He in H. eexists. split; [exact H |]. reflexivity.
Qed.

(** X9: an interceptor that is kept and called again, not through the slot,
    captures again: contentBody is the value of the last call. *)
Theorem kept_interceptor_captures_again (send0 : sendfn) (C1 C2 : value) (w : world) :
  polite native ->
  exists o1 w1 o2 w2,
    invoke_send native (resDotSendInterceptor send0) C1 w = Some (o1, w1) /\
    contentBody (res w1) = Some C1 /\
    invoke_send native (resDotSendInterceptor send0) C2 w1 = Some (o2, w2) /\
    contentBody (res w2) = Some C2 /\
    send (res w2) = original send0.
Proof.
  intros Hp. unfold invoke_send.
  destruct (call_send_total native (S (depth (resDotSendInterceptor send0)))
              (resDotSendInterceptor send0) C1 w) as (o1 & w1 & E1); [lia |].
  destruct (call_send_total native (S (depth (resDotSendInterceptor send0)))
              (resDotSendInterceptor send0) C2 w1) as (o2 & w2 & E2); [lia |].
  destruct (call_send_frame native Hp _ _ _ _ _ _ E1) as (_ & Hc1 & _).
  destruct (call_send_frame native Hp _ _ _ _ _ _ E2) as (_ & Hc2 & Hs2).
  exists o1, w1, o2, w2. repeat split; assumption.
Qed.

(** X10: when the middleware has run twice on a response, with two loggers,
    one send goes through both interceptors and leaves the host's value in
    the slot, and at [finish] both listeners log the body, in the order of
    their registration. *)
Theorem middleware_mounted_twice
  (l1 l2 : nat) (req : request) (next1 next2 v0 C v1 v2 : value) (w0 w1 w2 : world) :
  polite native ->
  returns native l1 ->
  listeners (res w0) = [] ->
  send (res w0) = Plain v0 ->
  logging_middleware native (VFun l1) req next1 w0 = Some (Return v1, w1) ->
  logging_middleware native (VFun l2) req next2 w1 = Some (Return v2, w2) ->
  exists o w3 o' w4,
    handler_send native C w2 = Some (o, w3) /\
    send (res w3) = Plain v0 /\
    contentBody (res w3) = Some C /\
    emit_finish native w3 = Some (o', w4) /\
    log_entries (trace w4) =
      log_entries (trace w0) ++ [receipt req; receipt req; sent C; sent C].
Proof.
  intros Hp Hr Hl0 Hs0 Hm1 Hm2.
  destruct (middleware_returned native Hp _ _ _ _ _ _ Hm1) as (_ & Hs1 & _ & Hl1 & Ht1).
  destruct (middleware_returned native Hp _ _ _ _ _ _ Hm2) as (_ & Hs2 & _ & Hl2 & Ht2).
  rewrite Hl1, Hl0 in Hl2. simpl in Hl2. rewrite Hs1, Hs0 in Hs2.
  destruct (call_send_total native (S (depth (send (res w2)))) (send (res w2)) C w2)
    as (o & w3 & E); [lia |].
  destruct (call_send_frame native Hp _ _ _ _ _ _ E) as (Hl3 & Hc3 & Hs3).
  destruct (call_send_trace native _ _ _ _ _ _ E) as (tail & Ht3 & Hlog3).
  rewrite Hs2 in Hc3, Hs3. simpl in Hc3, Hs3. rewrite Hl2 in Hl3.
  destruct (Hr (sent C) (res w3)) as (u & Hu).
  destruct (Hp l1 (sent C) (res w3)) as (_ & Hc4 & _).
  assert (F : exists o' w4,
             emit_finish native w3 = Some (o', w4) /\
             trace w4 = trace w3 ++ [EvListener (FinishLogger (VFun l1)); EvLog (sent C);
                                     EvListener (FinishLogger (VFun l2)); EvLog (sent C)]).
  { unfold emit_finish. rewrite Hl3. simpl.
    unfold bind, record, get_contentBody. simpl. rewrite Hc3.
    rewrite call_host_fun. simpl. rewrite Hu. simpl. rewrite Hc4, Hc3.
    rewrite call_host_fun. simpl.
    destruct (fst (native l2 (sent C) _));
      do 2 eexists; (split; [reflexivity |]); simpl; rewrite <- !app_assoc; reflexivity. }
  destruct F as (o' & w4 & F & Ht4).
  exists o, w3, o', w4. split; [exact E |]. split; [exact Hs3 |].
  split; [exact Hc3 |]. split; [exact F |].
  rewrite Ht4, Ht3, Ht2, Ht1. rewrite !log_entries_app, Hlog3. simpl.
  rewrite !app_nil_r, <- !app_assoc. reflexivity.
Qed.

(** X11: an exchange of the application on a route of the handler, on a
    polite host whose logger, next and send return: the exchange returns,
    the log gains the receipt entry of the request and then the send entry
    of the payload with the uptime the handler read, and the host's send is
    back in the slot. *)
Theorem health_exchange_logs_payload
  (log k s : nat) (req : request) (uptime : value) (w0 : world) :
  polite native ->
  returns native log ->
  returns native k ->
  returns native s ->
  listeners (res w0) = [] ->
  send (res w0) = Plain (VFun s) ->
  exists w',
    health_exchange native log req (VFun k) uptime w0 = Some (Return VUndefined, w') /\
    log_entries (trace w') =
      log_entries (trace w0)
        ++ [receipt req;
            [VStr "SEND >>>"; VObj [("message", VStr "OK"); ("uptime", uptime)]]] /\
    contentBody (res w') = Some (health_body uptime) /\
    send (res w') = Plain (VFun s).
Proof.
  intros Hp Hlog Hk Hsnd Hl0 Hs0.
  unfold health_exchange, app_config.
  change (requestLoggerMiddleware native (VObj [("logger", VFun log)]))
    with (Return (logging_middleware native (VFun log))).
  cbv beta iota.
  destruct (Hlog (receipt req) (res w0)) as (u & Hu).
  pose proof (logging_middleware_run log k req u w0 Hu) as Hmw.
  destruct (Hk [] (patched (VFun log) (snd (native log (receipt req) (res w0)))))
    as (u' & Hu').
  rewrite Hu' in Hmw. simpl discard_result in Hmw.
  remember (mkWorld _ _) as w1 eqn:Hw1 in Hmw. clear Hw1.
  destruct (middleware_returned native Hp _ _ _ _ _ _ Hmw) as (_ & Hs1 & _ & Hl1 & Ht1).
  rewrite Hl0 in Hl1. simpl in Hl1. rewrite Hs0 in Hs1.
  unfold bind at 1. rewrite Hmw.
  (* the handler *)
  assert (E : exists o w2, handler_send native (health_body uptime) w1 = Some (o, w2)).
  { rewrite handler_send_eq.
    destruct (call_send_total native (S (depth (send (res w1)))) (send (res w1))
                (health_body uptime) w1) as (o & w2 & E); [lia |]. eauto. }
  destruct E as (o & w2 & E).
  pose proof E as F. rewrite handler_send_eq in F.
  destruct (call_send_frame native Hp _ _ _ _ _ _ F) as (Hl2 & Hc2 & Hs2).
  destruct (call_send_trace native _ _ _ _ _ _ F) as (tail & Ht2 & Hlog2).
  rewrite Hs1 in Hc2, Hs2. simpl in Hc2, Hs2. rewrite Hl1 in Hl2.
  assert (Ho : exists r, o = Return r).
  { rewrite Hs1 in F. unfold invoke_send, resDotSendInterceptor in F.
    rewrite call_send_interceptor in F. simpl call_send in F.
    rewrite call_host_fun in F.
    destruct (Hsnd [health_body uptime]
                (res (entered (Plain (VFun s)) (health_body uptime) w1))) as (r & Hr).
    rewrite Hr in F. inversion F. eauto. }
  destruct Ho as (r & ->).
  unfold bind at 1. unfold health_handler. unfold bind at 1. rewrite E. unfold ret.
  pose proof (emit_finish_logger native log w2 Hl2) as Hfin. simpl in Hfin.
  rewrite Hc2 in Hfin.
  destruct (Hlog (sent (health_body uptime)) (res w2)) as (u2 & Hu2).
  rewrite Hu2 in Hfin. simpl in Hfin.
  eexists. split; [exact Hfin |]. simpl.
  destruct (Hp log (sent (health_body uptime)) (res w2)) as (Hs3 & Hc3 & _).
  split.
  - rewrite Ht2, Ht1.
    rewrite !log_entries_app, Hlog2. simpl.
    rewrite !app_nil_r, <- !app_assoc. reflexivity.
  - split; [rewrite Hc3; exact Hc2 | rewrite Hs3; exact Hs2].
Qed.

End Further.

(** ** The demo application, again *)

Lemma console_log_returns : returns demo_host console_log.
Proof.
  intros args r. exists VUndefined. reflexivity.
Qed.

Lemma router_next_returns : returns demo_host router_next.
Proof.
  intros args r. exists VUndefined. reflexivity.
Qed.

Lemma express_send_returns : returns demo_host express_send.
Proof.
  intros args r. eexists. reflexivity.
Qed.

Lemma no_interceptor_remains_witness :
  exists o w',
    handler_send demo_host health_payload (twice_installed_world (VFun express_send))
      = Some (o, w') /\
    send (res w') = Plain (VFun express_send) /\
    depth (send (res w')) = 0 /\
    contentBody (res w') = Some health_payload /\
    listeners (res w') = listeners (res (twice_installed_world (VFun express_send))).
Proof.
  exact (no_interceptor_remains demo_host health_payload
           (twice_installed_world (VFun express_send)) demo_host_polite).
Defined.

Lemma interceptor_over_non_function_witness :
  invoke_send demo_host (resDotSendInterceptor (Plain VUndefined)) health_payload
    (fresh_world VUndefined) =
  Some (Throw (TypeError "res.send is not a function"),
        entered (Plain VUndefined) health_payload (fresh_world VUndefined)).
Proof.
  exact (interceptor_over_non_function demo_host VUndefined health_payload
           (fresh_world VUndefined) eq_refl).
Defined.

Lemma middleware_hands_patched_response_to_next_witness :
  exists o w',
    logging_middleware demo_host (VFun console_log) health_request (VFun broken_send)
      (fresh_world (VFun express_send)) = Some (o, w') /\
    o = Throw (VStr "EPIPE") /\
    send (res w') = resDotSendInterceptor (Plain (VFun express_send)) /\
    listeners (res w') = [("finish", FinishLogger (VFun console_log))].
Proof.
  destruct (middleware_hands_patched_response_to_next demo_host console_log broken_send
              health_request VUndefined (fresh_world (VFun express_send)) eq_refl)
    as (o & w' & Hrun & Hnext & _).
  exists (discard_result o), w'. split; [exact Hrun |].
  simpl in Hnext. inversion Hnext. repeat split.
Defined.

Lemma middleware_without_next_witness :
  logging_middleware demo_host (VFun console_log) health_request VUndefined
    (fresh_world (VFun express_send)) =
  Some (Throw (TypeError "next is not a function"),
        mkWorld (patched (VFun console_log) (res (fresh_world (VFun express_send))))
                [EvLog (receipt health_request);
                 EvSetSend (resDotSendInterceptor (Plain (VFun express_send)));
                 EvOn "finish" (FinishLogger (VFun console_log))]).
Proof.
  exact (middleware_without_next demo_host console_log health_request VUndefined VUndefined
           (fresh_world (VFun express_send)) eq_refl eq_refl).
Defined.

Lemma finish_propagates_logger_failure_witness :
  exists w',
    emit_finish demo_host broken_logger_world = Some (Throw (VStr "EPIPE"), w') /\
    trace w' = [EvListener (FinishLogger (VFun broken_send)); EvLog (sent health_payload)].
Proof.
  exact (finish_propagates_logger_failure demo_host broken_send (VStr "EPIPE")
           broken_logger_world eq_refl eq_refl).
Defined.

Lemma kept_interceptor_captures_again_witness :
  exists o1 w1 o2 w2,
    invoke_send demo_host (resDotSendInterceptor (Plain (VFun express_send))) health_payload
      (fresh_world (VFun express_send)) = Some (o1, w1) /\
    contentBody (res w1) = Some health_payload /\
    invoke_send demo_host (resDotSendInterceptor (Plain (VFun express_send))) (VStr "again")
      w1 = Some (o2, w2) /\
    contentBody (res w2) = Some (VStr "again") /\
    send (res w2) = Plain (VFun express_send).
Proof.
  exact (kept_interceptor_captures_again demo_host (Plain (VFun express_send))
           health_payload (VStr "again") (fresh_world (VFun express_send)) demo_host_polite).
Defined.

Lemma middleware_mounted_twice_witness :
  exists o w3 o' w4,
    handler_send demo_host health_payload (twice_installed_world (VFun express_send))
      = Some (o, w3) /\
    send (res w3) = Plain (VFun express_send) /\
    contentBody (res w3) = Some health_payload /\
    emit_finish demo_host w3 = Some (o', w4) /\
    log_entries (trace w4) =
      [receipt health_request; receipt health_request;
       sent health_payload; sent health_payload].
Proof.
  exact (middleware_mounted_twice demo_host console_log console_log health_request
           (VFun router_next) (VFun router_next) (VFun express_send) health_payload
           VUndefined VUndefined
           (fresh_world (VFun express_send)) (installed_world (VFun express_send))
           (twice_installed_world (VFun express_send))
           demo_host_polite console_log_returns
           eq_refl eq_refl (demo_middleware_run (VFun express_send)) eq_refl).
Defined.

Lemma health_exchange_logs_payload_witness :
  exists w',
    health_exchange demo_host console_log health_request (VFun router_next) (VNum 12)
      (fresh_world (VFun express_send)) = Some (Return VUndefined, w') /\
    log_entries (trace w') =
      [receipt health_request;
       [VStr "SEND >>>"; VObj [("message", VStr "OK"); ("uptime", VNum 12)]]] /\
    contentBody (res w') = Some (health_body (VNum 12)) /\
    send (res w') = Plain (VFun express_send).
Proof.
  exact (health_exchange_logs_payload demo_host console_log router_next express_send
           health_request (VNum 12) (fresh_world (VFun express_send))
           demo_host_polite
           console_log_returns
           router_next_returns
           express_send_returns
           eq_refl eq_refl).
Defined.
